(** * ResyncModal: the resync controller of the dashboard

    A shallow embedding of
    [ui/apps/dashboard/.../apps/[externalID]/ResyncModal.tsx].

    The React component is a function of its props and of four [useState]
    cells.  It is embedded as
    - a record [State] for the four cells and their setters,
    - a pure function [render] from props and state to the attributes that
      the JSX passes to its children,
    - the event handler [onSync], written in a small state-and-exception
      monad so that [try] / [catch] / [finally] keep their shape,
    - an event loop [handle] that feeds user events and the settlement of
      the remote call to the handlers of the current render. *)

From Stdlib Require Import String List Bool Arith Lia.
Import ListNotations.
Local Open Scope string_scope.
Local Open Scope list_scope.

(** ** Data *)

(** Values that can be thrown: the [CombinedError] of the GraphQL client
    ([throw res.error]), a plain [Error] (line 84), the reason of a
    rejected promise, or what a callback throws. *)
Inductive Exn : Type :=
| CombinedError (message : string)
| Error (message : string).

(** [type Props], lines 33-40.  The callback [onClose: () => void] is kept
    by how a call of it completes: [None] when it returns, [Some e] when it
    throws [e].  The call itself is recorded as the effect [OnClose]
    below. *)
Module Props.
Record t : Type := mk {
  appExternalID : string;
  isOpen : bool;
  onClose : option Exn;
  url : string;
  platform : option string;
  appMethod : option string
}.
End Props.

(** The value of [useEnvironment()]; only [env.id] is read. *)
Module Environment.
Record t : Type := mk { id : string }.
End Environment.

(** The variables of the [ResyncApp] mutation, line 19:
    [$appExternalID: String!, $appURL: String, $envID: UUID!]. *)
Module Variables.
Record t : Type := mk {
  appExternalID : string;
  appURL : option string;
  envID : string
}.
End Variables.

(** The second argument of [resyncApp], lines 72-78. *)
Module OperationContext.
Record t : Type := mk { additionalTypenames : list string }.
End OperationContext.

(** What the component does to the outside world. *)
Inductive Effect : Type :=
| ExecuteMutation (variables : Variables.t) (context : OperationContext.t)
| ToastSuccess (text : string)
| OnClose.

Section ResyncModal.

(** The payload of [CodedError.data] is typed [unknown]. *)
Context {unknown : Type}.

(** [methodTypes.Connect], imported from [@inngest/components/types/app]. *)
Variable methodTypes_Connect : string.

(** [toast.success], imported from [sonner], by how a call of it completes:
    [None] when it returns, [Some e] when it throws [e]. *)
Variable toast_success_throws : option Exn.

(** [CodedError], imported from [@/codedError]; the selection set of the
    mutation (lines 24-28) names its three fields. *)
Record CodedError : Type := mkCodedError {
  code : string;
  data : option unknown;
  message : option string
}.

(** The selection set of the mutation, lines 20-29. *)
Record ResyncAppPayload : Type := mkPayload {
  app : option string;
  error : option CodedError
}.

Record ResyncAppMutation : Type := mkMutation {
  data_resyncApp : ResyncAppPayload
}.

(** The result of the GraphQL client: [res.data] and [res.error] (the
    latter a [CombinedError], kept by its message). *)
Record OperationResult : Type := mkResult {
  res_data : option ResyncAppMutation;
  res_error : option string
}.

(** The four [useState] cells, lines 50-53. *)
Record State : Type := mkState {
  overrideValue : string;
  isURLOverridden : bool;
  failure : option CodedError;
  isSyncing : bool
}.

Definition initialState (p : Props.t) : State :=
  {| overrideValue := Props.url p;
     isURLOverridden := false;
     failure := None;
     isSyncing := false |}.

Definition setOverrideValue (v : string) (s : State) : State :=
  {| overrideValue := v;
     isURLOverridden := isURLOverridden s;
     failure := failure s;
     isSyncing := isSyncing s |}.

(** The setter is called with an updater function (line 164). *)
Definition setURLOverridden (f : bool -> bool) (s : State) : State :=
  {| overrideValue := overrideValue s;
     isURLOverridden := f (isURLOverridden s);
     failure := failure s;
     isSyncing := isSyncing s |}.

Definition setFailure (e : option CodedError) (s : State) : State :=
  {| overrideValue := overrideValue s;
     isURLOverridden := isURLOverridden s;
     failure := e;
     isSyncing := isSyncing s |}.

Definition setIsSyncing (b : bool) (s : State) : State :=
  {| overrideValue := overrideValue s;
     isURLOverridden := isURLOverridden s;
     failure := failure s;
     isSyncing := b |}.

(** Lines 58-60: [if (isURLOverridden) { url = overrideValue; }]. *)
Definition effectiveURL (p : Props.t) (s : State) : string :=
  if isURLOverridden s then overrideValue s else Props.url p.

(** Line 104. [appMethod] is optional; [undefined === ...] is false. *)
Definition isConnect (p : Props.t) : bool :=
  match Props.appMethod p with
  | Some m => String.eqb m methodTypes_Connect
  | None => false
  end.

(** ** The monad of event handlers

    A handler reads and writes the state cells, calls its collaborators,
    may throw, and may suspend on the promise of the mutation it has just
    dispatched ([await]).  While it is suspended the event loop runs other
    handlers; the continuation receives the settlement of the promise and
    the world as it is by then. *)

Record World : Type := mkWorld {
  state : State;
  effects : list Effect
}.

Inductive Completion (A : Type) : Type :=
| Value (a : A)
| Threw (e : Exn).
Arguments Value {A} a.
Arguments Threw {A} e.

Inductive Res (A : Type) : Type :=
| Fin (c : Completion A) (w : World)
| Await (w : World) (k : Completion OperationResult -> World -> Res A).
Arguments Fin {A} c w.
Arguments Await {A} w k.

Definition M (A : Type) : Type := World -> Res A.

Definition ret {A} (a : A) : M A := fun w => Fin (Value a) w.

Definition throw {A} (e : Exn) : M A := fun w => Fin (Threw e) w.

Fixpoint bind_res {A B} (r : Res A) (k : A -> M B) : Res B :=
  match r with
  | Fin (Value a) w => k a w
  | Fin (Threw e) w => Fin (Threw e) w
  | Await w kont => Await w (fun o w' => bind_res (kont o w') k)
  end.

Definition bind {A B} (m : M A) (k : A -> M B) : M B :=
  fun w => bind_res (m w) k.

Definition modify (f : State -> State) : M unit :=
  fun w => Fin (Value tt) {| state := f (state w); effects := effects w |}.

Definition emit (e : Effect) : M unit :=
  fun w => Fin (Value tt) {| state := state w; effects := effects w ++ [e] |}.

(** [catch (error) { handler }]: runs when the block throws. *)
Fixpoint catch_res (r : Res unit) (handler : Exn -> M unit) : Res unit :=
  match r with
  | Fin (Value a) w => Fin (Value a) w
  | Fin (Threw e) w => handler e w
  | Await w k => Await w (fun o w' => catch_res (k o w') handler)
  end.

(** The end of a [finally] block: the completion [c] of what came before
    stands, unless the block itself threw. *)
Fixpoint complete_with (c : Completion unit) (r : Res unit) : Res unit :=
  match r with
  | Fin (Value _) w => Fin c w
  | Fin (Threw e) w => Fin (Threw e) w
  | Await w k => Await w (fun o w' => complete_with c (k o w'))
  end.

(** [finally { finalizer }]: runs however the block completed. *)
Fixpoint finally_res (r : Res unit) (finalizer : M unit) : Res unit :=
  match r with
  | Fin c w => complete_with c (finalizer w)
  | Await w k => Await w (fun o w' => finally_res (k o w') finalizer)
  end.

Definition try_catch_finally
  (body : M unit) (handler : Exn -> M unit) (finalizer : M unit) : M unit :=
  fun w => finally_res (catch_res (body w) handler) finalizer.

Notation "x <- m ;; k" := (bind m (fun x => k))
  (at level 61, m at next level, right associativity).
Notation "m ;; k" := (bind m (fun _ => k))
  (at level 61, right associativity).

(** The collaborators called by the handler: [toast.success], the prop
    [onClose], and [await resyncApp(variables, context)], the function
    returned by [useMutation(ResyncAppDocument)] at line 55.  A call of one
    of the first two is recorded and then returns or throws; the third
    records the mutation and suspends the handler until the promise
    settles, with a result or with an exception when the promise is
    rejected. *)
Definition completes (thrown : option Exn) : M unit :=
  match thrown with
  | None => ret tt
  | Some e => throw e
  end.

Definition toast_success (text : string) : M unit :=
  emit (ToastSuccess text) ;; completes toast_success_throws.

Definition onClose (p : Props.t) : M unit :=
  emit OnClose ;; completes (Props.onClose p).

Definition resyncApp (variables : Variables.t) (context : OperationContext.t)
  : M OperationResult :=
  fun w =>
    Await {| state := state w;
             effects := effects w ++ [ExecuteMutation variables context] |}
          (fun o w' => Fin o w').

(** ** The handler [onSync], lines 62-102

    [p], [env] and [s] are the props, the environment and the state of the
    render whose closure the handler is: [url] is the variable reassigned
    at lines 58-60.  The [return] of line 89 leaves the [try] block, so the
    statements after it are the other branch of the test. *)
Definition onSync (p : Props.t) (env : Environment.t) (s : State) : M unit :=
  let url := effectiveURL p s in
  modify (setIsSyncing true) ;;
  try_catch_finally
    (res <- resyncApp
              {| Variables.appExternalID := Props.appExternalID p;
                 Variables.appURL := Some url;
                 Variables.envID := Environment.id env |}
              {| OperationContext.additionalTypenames := ["Workflow"] |} ;;
     match res_error res with
     | Some e => throw (CombinedError e)
     | None => ret tt
     end ;;
     match res_data res with
     | None => throw (Error "No API response data")
     | Some d =>
         match error (data_resyncApp d) with
         | Some e => modify (setFailure (Some e))
         | None =>
             modify (setFailure None) ;;
             toast_success "Synced app" ;;
             onClose p
         end
     end)
    (fun _ =>
       modify (setFailure
                 (Some {| code := "unknown"; data := None; message := None |})))
    (modify (setIsSyncing false)).

(** ** The rendered attributes, lines 106-208 *)

Record View : Type := mkView {
  modalIsOpen : bool;
  headerTitle : string;
  vercelAlertShown : bool;
  connectNoticeShown : bool;
  inputValue : string;
  inputReadOnly : bool;
  switchChecked : bool;
  switchDisabled : bool;
  overrideWarningShown : bool;
  syncFailureShown : option CodedError;
  cancelDisabled : bool;
  submitDisabled : bool;
  submitLabel : string
}.

(** Truthiness of an object that may be [undefined] or [null]. *)
Definition truthy {A} (o : option A) : bool :=
  match o with Some _ => true | None => false end.

Definition platform_is (p : Props.t) (name : string) : bool :=
  match Props.platform p with
  | Some x => String.eqb x name
  | None => false
  end.

Definition render (p : Props.t) (s : State) : View :=
  let url := effectiveURL p s in
  {| modalIsOpen := Props.isOpen p;
     headerTitle := if isConnect p then "Migrate to serve" else "Resync app";
     vercelAlertShown := platform_is p "vercel" && negb (truthy (failure s));
     connectNoticeShown := isConnect p;
     inputValue := url;
     inputReadOnly := negb (isURLOverridden s);
     switchChecked := isURLOverridden s;
     switchDisabled := isSyncing s;
     overrideWarningShown := isURLOverridden s && negb (truthy (failure s));
     syncFailureShown :=
       match failure s with
       | Some e => if negb (isSyncing s) then Some e else None
       | None => None
       end;
     cancelDisabled := isSyncing s;
     submitDisabled := isSyncing s || (negb (isURLOverridden s) && isConnect p);
     submitLabel := if isConnect p then "Migrate app" else "Resync app" |}.

(** ** Running a handler to its end

    [run_with o during r] settles the promise that [r] awaits with [o];
    [during] is what other handlers did to the state cells while [r] was
    suspended.  The result is the completion of the handler and the world
    it leaves: the state, and the effects of this run after those of [w]. *)
Fixpoint run_with {A} (o : Completion OperationResult)
  (during : State -> State) (r : Res A) : Completion A * World :=
  match r with
  | Fin c w => (c, w)
  | Await w k =>
      run_with o during
        (k o {| state := during (state w); effects := effects w |})
  end.

(** The mutations and the close signals among a list of effects. *)
Fixpoint dispatched (l : list Effect) : list Variables.t :=
  match l with
  | [] => []
  | ExecuteMutation variables _ :: l' => variables :: dispatched l'
  | _ :: l' => dispatched l'
  end.

Fixpoint closeSignals (l : list Effect) : nat :=
  match l with
  | [] => 0
  | OnClose :: l' => S (closeSignals l')
  | _ :: l' => closeSignals l'
  end.

(** ** The event loop

    One event at a time: a user event runs the handler that the current
    render attached to the control, and the settlement of a promise resumes
    the handler that awaits it. *)

Inductive UserEvent : Type :=
| SwitchClicked
| InputTyped (text : string)
| CancelClicked
| SubmitClicked.

Inductive Event : Type :=
| User (u : UserEvent)
| Settled (o : Completion OperationResult).

Record Config : Type := mkConfig {
  world : World;
  pending : list (Completion OperationResult -> World -> Res unit)
}.

Definition initialConfig (p : Props.t) : Config :=
  {| world := {| state := initialState p; effects := [] |}; pending := [] |}.

(** A handler that suspends joins the pending ones; an exception that
    leaves a handler is dropped. *)
Definition spawn (r : Res unit)
  (rest : list (Completion OperationResult -> World -> Res unit)) : Config :=
  match r with
  | Fin _ w => {| world := w; pending := rest |}
  | Await w k => {| world := w; pending := rest ++ [k] |}
  end.

Definition call (h : M unit) (c : Config) : Config :=
  spawn (h (world c)) (pending c).

(** Modelled from the spec: [Button] of [@inngest/components/Button] is not
    among the sources.  Section 5: "a user action attempted while syncing is
    simply inert (button disabled), not buffered"; a click reaches [onClick]
    only when the button is not disabled. *)
Definition Button_click (disabled : bool) (onClick : Config -> Config)
  (c : Config) : Config :=
  if disabled then c else onClick c.

(** Modelled from the spec: [Switch] of [@inngest/components/Switch] is not
    among the sources.  Section 6: "toggle switch (checked + change callback +
    disabled flag)"; the change callback runs only when the switch is not
    disabled. *)
Definition Switch_click (disabled : bool) (onCheckedChange : Config -> Config)
  (c : Config) : Config :=
  if disabled then c else onCheckedChange c.

(** Modelled from the spec: [Input] of [@inngest/components/Forms/Input] is
    not among the sources.  Section 4.1: "The input field is read-only
    whenever overriding is disabled - this is a UI-level enforcement of the
    invariant"; the change callback runs only when the field is not
    read-only. *)
Definition Input_type (readOnly : bool) (onChange : Config -> Config)
  (c : Config) : Config :=
  if readOnly then c else onChange c.

(** The callbacks that lines 147-205 attach to the four controls. *)
Definition handle_user (p : Props.t) (env : Environment.t) (u : UserEvent)
  (c : Config) : Config :=
  let s := state (world c) in
  let v := render p s in
  match u with
  | SwitchClicked =>
      Switch_click (switchDisabled v)
        (call (modify (setURLOverridden (fun prev => negb prev)))) c
  | InputTyped text =>
      Input_type (inputReadOnly v) (call (modify (setOverrideValue text))) c
  | CancelClicked =>
      Button_click (cancelDisabled v) (call (onClose p)) c
  | SubmitClicked =>
      Button_click (submitDisabled v) (call (onSync p env s)) c
  end.

Definition handle (p : Props.t) (env : Environment.t) (e : Event)
  (c : Config) : Config :=
  match e with
  | User u => handle_user p env u c
  | Settled o =>
      match pending c with
      | [] => c
      | k :: rest => spawn (k o (world c)) rest
      end
  end.

Definition run (p : Props.t) (env : Environment.t) (es : list Event)
  (c : Config) : Config :=
  fold_left (fun c e => handle p env e c) es c.

(** ** Calls of the two setters of the URL override (section 4.1 of the
    specification names them [setOverrideEnabled] and [setOverrideValue]) *)

Inductive SetterCall : Type :=
| Call_setOverrideValue (v : string)
| Call_setURLOverridden (f : bool -> bool).

Definition apply_call (s : State) (c : SetterCall) : State :=
  match c with
  | Call_setOverrideValue v => setOverrideValue v s
  | Call_setURLOverridden f => setURLOverridden f s
  end.

Definition apply_calls (cs : list SetterCall) (s : State) : State :=
  fold_left apply_call cs s.

(** What a sequence of calls says by itself, whatever the state: whether
    overriding is enabled after it, starting from disabled, and the last
    text given to [setOverrideValue], or [seed] when there was none. *)
Definition enabled_after (cs : list SetterCall) : bool :=
  fold_left
    (fun b c =>
       match c with
       | Call_setURLOverridden f => f b
       | Call_setOverrideValue _ => b
       end)
    cs false.

Definition buffer_after (cs : list SetterCall) (seed : string) : string :=
  fold_left
    (fun v c =>
       match c with
       | Call_setOverrideValue v' => v'
       | Call_setURLOverridden _ => v
       end)
    cs seed.

(** ** The three outcomes of the specification (section 3, ResyncOutcome),
    as conditions on the settlement of the promise *)

Definition transportFailure (o : Completion OperationResult) : Prop :=
  match o with
  | Threw _ => True
  | Value res => res_error res <> None \/ res_data res = None
  end.

Definition applicationError (o : Completion OperationResult)
  (e : CodedError) : Prop :=
  exists res d,
    o = Value res /\ res_error res = None /\ res_data res = Some d /\
    error (data_resyncApp d) = Some e.

Definition successful (o : Completion OperationResult) : Prop :=
  exists res d,
    o = Value res /\ res_error res = None /\ res_data res = Some d /\
    error (data_resyncApp d) = None.

(** What the success branch (lines 92-94) leaves, by how the calls of
    [toast.success] and [onClose] complete: when one of them throws, the
    [catch] block of line 95 replaces the cleared failure, and [onClose] is
    not called after a [toast.success] that threw. *)
Definition failure_after_success (p : Props.t) : option CodedError :=
  match toast_success_throws, Props.onClose p with
  | None, None => None
  | _, _ => Some {| code := "unknown"; data := None; message := None |}
  end.

Definition effects_of_success : list Effect :=
  ToastSuccess "Synced app" ::
  match toast_success_throws with
  | None => [OnClose]
  | Some _ => []
  end.

(** ** The scenarios of section 8 of the specification *)

Definition scenarioA_props : Props.t :=
  {| Props.appExternalID := "my-app";
     Props.isOpen := true;
     Props.onClose := None;
     Props.url := "https://a.com/api/inngest";
     Props.platform := None;
     Props.appMethod := Some "serve" |}.

Definition scenario_env : Environment.t := {| Environment.id := "env-1" |}.

Definition scenarioA_response : Completion OperationResult :=
  Value {| res_data :=
             Some {| data_resyncApp := {| app := Some "1"; error := None |} |};
           res_error := None |}.

(** The configuration of scenario A once the user has confirmed and the
    call is in flight. *)
Definition scenarioA_in_flight : Config :=
  handle scenarioA_props scenario_env (User SubmitClicked)
    (initialConfig scenarioA_props).

Definition scenarioB_state : State :=
  setOverrideValue "https://b.com/x"
    (setURLOverridden (fun prev => negb prev) (initialState scenarioA_props)).

Definition scenarioB_error : CodedError :=
  {| code := "invalid_url"; data := None; message := Some "bad host" |}.

Definition scenarioB_response : Completion OperationResult :=
  Value {| res_data :=
             Some {| data_resyncApp :=
                       {| app := None; error := Some scenarioB_error |} |};
           res_error := None |}.

Definition scenarioC_no_data : Completion OperationResult :=
  Value {| res_data := None; res_error := None |}.


Definition scenarioB_response_with_res_error : Completion OperationResult :=
  Value {| res_data :=
             Some {| data_resyncApp :=
                       {| app := None; error := Some scenarioB_error |} |};
           res_error := Some "[GraphQL] partial result" |}.

Definition scenarioD_props (connect : string) : Props.t :=
  {| Props.appExternalID := "my-app";
     Props.isOpen := true;
     Props.onClose := None;
     Props.url := "https://a.com/api/inngest";
     Props.platform := None;
     Props.appMethod := Some connect |}.

(** * Properties *)

(** ** How [onSync] runs *)

Lemma closeSignals_app (l1 l2 : list Effect) :
  closeSignals (l1 ++ l2) = closeSignals l1 + closeSignals l2.
Proof.
  induction l1 as [|e l1 IH]; simpl; [reflexivity|].
  destruct e; simpl; rewrite IH; reflexivity.
Qed.

Lemma dispatched_app (l1 l2 : list Effect) :
  dispatched (l1 ++ l2) = dispatched l1 ++ dispatched l2.
Proof.
  induction l1 as [|e l1 IH]; simpl; [reflexivity|].
  destruct e; simpl; rewrite IH; reflexivity.
Qed.

(** Every settlement is of one of the three kinds. *)
Lemma outcome_cases (o : Completion OperationResult) :
  transportFailure o \/ (exists e, applicationError o e) \/ successful o.
Proof.
  destruct o as [res|x]; [|left; exact I].
  destruct res as [[d|] [msg|]].
  - left. left. discriminate.
  - destruct (error (data_resyncApp d)) as [e|] eqn:He.
    + right. left. exists e, {| res_data := Some d; res_error := None |}, d.
      repeat split; assumption.
    + right. right. exists {| res_data := Some d; res_error := None |}, d.
      repeat split; assumption.
  - left. left. discriminate.
  - left. right. reflexivity.
Qed.

(** The handler first marks the state as syncing and dispatches the
    mutation, then suspends. *)
Lemma onSync_suspends p env s w :
  exists k,
    onSync p env s w =
    Await {| state := setIsSyncing true (state w);
             effects :=
               effects w ++
               [ExecuteMutation
                  {| Variables.appExternalID := Props.appExternalID p;
                     Variables.appURL := Some (effectiveURL p s);
                     Variables.envID := Environment.id env |}
                  {| OperationContext.additionalTypenames := ["Workflow"] |}]
          |} k.
Proof. eexists. reflexivity. Qed.

Lemma run_onSync_transport p env s w o during :
  transportFailure o ->
  run_with o during (onSync p env s w) =
  (Value tt,
   {| state :=
        setIsSyncing false
          (setFailure
             (Some {| code := "unknown"; data := None; message := None |})
             (during (setIsSyncing true (state w))));
      effects :=
        effects w ++
        [ExecuteMutation
           {| Variables.appExternalID := Props.appExternalID p;
              Variables.appURL := Some (effectiveURL p s);
              Variables.envID := Environment.id env |}
           {| OperationContext.additionalTypenames := ["Workflow"] |}] |}).
Proof.
  intros H. destruct o as [res|x]; [|reflexivity].
  destruct res as [d [msg|]]; [reflexivity|].
  destruct d as [d|]; [|reflexivity].
  simpl in H. destruct H as [H|H]; [congruence|discriminate].
Qed.

Lemma run_onSync_error p env s w o during e :
  applicationError o e ->
  run_with o during (onSync p env s w) =
  (Value tt,
   {| state :=
        setIsSyncing false
          (setFailure (Some e) (during (setIsSyncing true (state w))));
      effects :=
        effects w ++
        [ExecuteMutation
           {| Variables.appExternalID := Props.appExternalID p;
              Variables.appURL := Some (effectiveURL p s);
              Variables.envID := Environment.id env |}
           {| OperationContext.additionalTypenames := ["Workflow"] |}] |}).
Proof.
  intros (res & d & -> & Herr & Hdata & He).
  destruct res as [d' msg]. simpl in Herr, Hdata. subst d' msg.
  unfold run_with, onSync, try_catch_finally, bind, resyncApp, modify. simpl.
  rewrite He. reflexivity.
Qed.

Lemma run_onSync_success p env s w o during :
  successful o ->
  run_with o during (onSync p env s w) =
  (Value tt,
   {| state :=
        setIsSyncing false
          (setFailure (failure_after_success p)
             (during (setIsSyncing true (state w))));
      effects :=
        (effects w ++
         [ExecuteMutation
            {| Variables.appExternalID := Props.appExternalID p;
               Variables.appURL := Some (effectiveURL p s);
               Variables.envID := Environment.id env |}
            {| OperationContext.additionalTypenames := ["Workflow"] |}]) ++
        effects_of_success |}).
Proof.
  intros (res & d & -> & Herr & Hdata & He).
  destruct res as [d' msg]. simpl in Herr, Hdata. subst d' msg.
  unfold run_with, onSync, try_catch_finally, bind, resyncApp, modify,
    toast_success, onClose, completes, failure_after_success,
    effects_of_success.
  simpl. rewrite He. simpl.
  destruct toast_success_throws as [x|]; simpl;
    [|destruct (Props.onClose p) as [y|]; simpl];
    rewrite <- ?app_assoc; reflexivity.
Qed.

(** ** What user events can do while a resync is in flight *)

Lemma handle_user_while_syncing p env u c :
  isSyncing (state (world c)) = true ->
  isSyncing (state (world (handle_user p env u c))) = true /\
  isURLOverridden (state (world (handle_user p env u c))) =
    isURLOverridden (state (world c)) /\
  pending (handle_user p env u c) = pending c /\
  effects (world (handle_user p env u c)) = effects (world c).
Proof.
  intros Hs. destruct u; unfold handle_user; simpl.
  - unfold Switch_click. rewrite Hs. repeat split; auto.
  - destruct (isURLOverridden (state (world c))) eqn:E; simpl;
      repeat split; auto.
  - unfold Button_click. rewrite Hs. repeat split; auto.
  - unfold Button_click. rewrite Hs. simpl. repeat split; auto.
Qed.

Lemma run_users_while_syncing p env us : forall c,
  isSyncing (state (world c)) = true ->
  isSyncing (state (world (run p env (map User us) c))) = true /\
  isURLOverridden (state (world (run p env (map User us) c))) =
    isURLOverridden (state (world c)) /\
  pending (run p env (map User us) c) = pending c /\
  effects (world (run p env (map User us) c)) = effects (world c).
Proof.
  induction us as [|u us IH]; intros c Hs; simpl.
  - repeat split; assumption.
  - destruct (handle_user_while_syncing p env u c Hs) as (H1 & H2 & H3 & H4).
    destruct (IH _ H1) as (I1 & I2 & I3 & I4).
    unfold run in *. simpl.
    rewrite I2, I3, I4, H2, H3, H4. repeat split. exact I1.
Qed.

(** ** The claims *)

(** C1, as amended.  The request that [onSync] passes to the remote resync
    operation never has a null [appURL]: the field holds the URL of the
    props while the override is off, and the override value while it is
    on. *)
Theorem resync_request_url p env s w :
  exists w1 k,
    onSync p env s w = Await w1 k /\
    dispatched (effects w1) =
    dispatched (effects w) ++
    [{| Variables.appExternalID := Props.appExternalID p;
        Variables.appURL :=
          Some (if isURLOverridden s then overrideValue s else Props.url p);
        Variables.envID := Environment.id env |}].
Proof.
  destruct (onSync_suspends p env s w) as [k Hk].
  eexists. exists k. split; [exact Hk|].
  simpl. rewrite dispatched_app. reflexivity.
Qed.

(** The state after a sequence of calls holds what the sequence says. *)
Lemma apply_calls_history cs : forall s,
  isURLOverridden (apply_calls cs s) =
    fold_left
      (fun b c =>
         match c with
         | Call_setURLOverridden f => f b
         | Call_setOverrideValue _ => b
         end)
      cs (isURLOverridden s) /\
  overrideValue (apply_calls cs s) = buffer_after cs (overrideValue s).
Proof.
  induction cs as [|c cs IH]; intros s; [split; reflexivity|].
  unfold apply_calls, buffer_after in *. simpl.
  destruct (IH (apply_call s c)) as [H1 H2]. rewrite H1, H2.
  destruct c; split; reflexivity.
Qed.

(** C2.  After every sequence of calls of the two setters of the override,
    from the initial state, the effective URL (which the input shows) is
    the override buffer if overriding is currently enabled and the original
    URL otherwise; overriding is enabled as the calls of the sequence say,
    and the buffer is the last text given to [setOverrideValue], or the
    original URL when none was given. *)
Theorem effective_url_follows_override p cs :
  let s := apply_calls cs (initialState p) in
  effectiveURL p s =
    (if enabled_after cs
     then buffer_after cs (Props.url p)
     else Props.url p) /\
  effectiveURL p s =
    (if isURLOverridden s then overrideValue s else Props.url p) /\
  isURLOverridden s = enabled_after cs /\
  overrideValue s = buffer_after cs (Props.url p) /\
  inputValue (render p s) = effectiveURL p s.
Proof.
  intros s. subst s.
  destruct (apply_calls_history cs (initialState p)) as [H1 H2].
  simpl in H1, H2. fold (enabled_after cs) in H1.
  split; [unfold effectiveURL; rewrite H1, H2; reflexivity|].
  split; [reflexivity|]. split; [exact H1|]. split; [exact H2|reflexivity].
Qed.

(** C3.  When the remote call fails at the transport level (the promise is
    rejected or the result carries an error) or returns no data, [onSync]
    sets the failure to the coded error with code "unknown" and emits no
    close signal. *)
Theorem transport_failure_is_unknown p env s w o during :
  transportFailure o ->
  let wf := snd (run_with o during (onSync p env s w)) in
  failure (state wf) =
    Some {| code := "unknown"; data := None; message := None |} /\
  closeSignals (effects wf) = closeSignals (effects w).
Proof.
  intros H wf. subst wf. rewrite (run_onSync_transport p env s w o during H).
  simpl. split; [reflexivity|].
  rewrite closeSignals_app. simpl. apply Nat.add_0_r.
Qed.


(** C5, as amended.  When the response carries no transport-level error
    ([res.error]) and carries an application-level error object, [onSync]
    stores that error as it is (code, data and message) as the failure,
    emits no close signal, and the modal stays open. *)
Theorem application_error_kept_verbatim p env s w o during e :
  applicationError o e ->
  let wf := snd (run_with o during (onSync p env s w)) in
  failure (state wf) = Some e /\
  closeSignals (effects wf) = closeSignals (effects w) /\
  isSyncing (state wf) = false.
Proof.
  intros H wf. subst wf. rewrite (run_onSync_error p env s w o during e H).
  simpl. split; [reflexivity|]. split; [|reflexivity].
  rewrite closeSignals_app. simpl. apply Nat.add_0_r.
Qed.

(** C6.  On every exit path of [onSync] (success, application-level error,
    transport failure, a rejected promise with any reason) the call
    settles, without an exception of its own, with [isSyncing] false. *)
Theorem is_syncing_reset_on_every_path p env s w o during :
  exists wf,
    run_with o during (onSync p env s w) = (Value tt, wf) /\
    isSyncing (state wf) = false.
Proof.
  destruct (outcome_cases o) as [H|[[e H]|H]].
  - rewrite (run_onSync_transport p env s w o during H).
    eexists. split; reflexivity.
  - rewrite (run_onSync_error p env s w o during e H).
    eexists. split; reflexivity.
  - rewrite (run_onSync_success p env s w o during H).
    eexists. split; reflexivity.
Qed.

(** C7.  When the method of the application is the connect method and the
    URL override is off, the submit button is disabled, whatever
    [isSyncing] and the rest of the state are. *)
Theorem migration_needs_override p s :
  Props.appMethod p = Some methodTypes_Connect ->
  isURLOverridden s = false ->
  submitDisabled (render p s) = true.
Proof.
  intros Hm Ho. unfold render, isConnect. simpl.
  rewrite Hm, Ho, String.eqb_refl. simpl. apply orb_true_r.
Qed.

(** C8.  While [isSyncing] is true the submit button is disabled: a click
    on it changes nothing, and whatever the user does before the call
    settles, no further request is dispatched and no further call is
    pending. *)
Theorem single_resync_in_flight p env c us :
  isSyncing (state (world c)) = true ->
  submitDisabled (render p (state (world c))) = true /\
  handle p env (User SubmitClicked) c = c /\
  let c' := run p env (map User us) c in
  submitDisabled (render p (state (world c'))) = true /\
  pending c' = pending c /\
  dispatched (effects (world c')) = dispatched (effects (world c)).
Proof.
  intros Hs. split; [simpl; rewrite Hs; reflexivity|].
  split; [simpl; unfold handle_user; simpl; rewrite Hs; reflexivity|].
  intros c'. subst c'.
  destruct (run_users_while_syncing p env us c Hs) as (H1 & _ & H3 & H4).
  split; [simpl; rewrite H1; reflexivity|].
  split; [exact H3|]. rewrite H4. reflexivity.
Qed.

(** C9.  The failure display is rendered exactly when a coded failure
    exists and [isSyncing] is false; it is never rendered while
    [isSyncing] is true. *)
Theorem failure_not_shown_while_syncing p s :
  (forall e,
     syncFailureShown (render p s) = Some e <->
     failure s = Some e /\ isSyncing s = false) /\
  isSyncing s && truthy (syncFailureShown (render p s)) = false.
Proof.
  simpl. destruct (failure s) as [x|], (isSyncing s); simpl;
    (split; [intros e; split; [intros H|intros [H H']]|reflexivity]);
    try discriminate; try (split; [exact H|reflexivity]); try exact H.
Qed.

(** C10.  While [isSyncing] is true the override switch is disabled: a
    click on it changes nothing, and whatever the user does before the call
    settles, [isURLOverridden] keeps its value, so the effective URL keeps
    its source. *)
Theorem override_frozen_in_flight p env c us :
  isSyncing (state (world c)) = true ->
  switchDisabled (render p (state (world c))) = true /\
  handle p env (User SwitchClicked) c = c /\
  let c' := run p env (map User us) c in
  switchDisabled (render p (state (world c'))) = true /\
  isURLOverridden (state (world c')) = isURLOverridden (state (world c)) /\
  effectiveURL p (state (world c')) =
    (if isURLOverridden (state (world c))
     then overrideValue (state (world c'))
     else Props.url p).
Proof.
  intros Hs. split; [exact Hs|].
  split; [simpl; unfold handle_user; simpl; rewrite Hs; reflexivity|].
  intros c'. subst c'.
  destruct (run_users_while_syncing p env us c Hs) as (H1 & H2 & _ & _).
  split; [exact H1|]. split; [exact H2|].
  unfold effectiveURL. rewrite H2. reflexivity.
Qed.

(** ** At most one resync is pending *)

(** The continuation on which [onSync] suspends ends, for every settlement,
    in a world where [isSyncing] is false. *)
Definition resets_isSyncing
  (k : Completion OperationResult -> World -> Res unit) : Prop :=
  forall o w, exists c w', k o w = Fin c w' /\ isSyncing (state w') = false.

Definition quiescent_or_single (c : Config) : Prop :=
  (pending c = [] /\ isSyncing (state (world c)) = false) \/
  (exists k,
     pending c = [k] /\ isSyncing (state (world c)) = true /\
     resets_isSyncing k).

Lemma onSync_continuation p env s w :
  exists w1 k,
    onSync p env s w = Await w1 k /\
    isSyncing (state w1) = true /\ resets_isSyncing k.
Proof.
  do 2 eexists. split; [reflexivity|]. split; [reflexivity|].
  intros o w'. destruct o as [[[d|] [msg|]]|x]; simpl;
    try (do 2 eexists; split; reflexivity).
  destruct (error (data_resyncApp d)); simpl;
    [do 2 eexists; split; reflexivity|].
  unfold toast_success, onClose, completes, bind. simpl.
  destruct toast_success_throws as [x|]; simpl;
    [|destruct (Props.onClose p) as [y|]; simpl];
    do 2 eexists; split; reflexivity.
Qed.

Lemma handle_keeps_single p env e c :
  quiescent_or_single c -> quiescent_or_single (handle p env e c).
Proof.
  intros [[Hp Hs]|(k & Hp & Hs & Hk)].
  - destruct e as [u|o]; [|simpl; rewrite Hp; left; split; assumption].
    destruct u; simpl; unfold handle_user; simpl.
    + unfold Switch_click, call. rewrite Hs, Hp. simpl.
      left. split; [reflexivity|exact Hs].
    + unfold Input_type, call.
      destruct (negb (isURLOverridden (state (world c)))); simpl.
      * left. split; assumption.
      * left. rewrite Hp. split; [reflexivity|exact Hs].
    + unfold Button_click, call. rewrite Hs, Hp.
      unfold onClose, completes, bind. simpl.
      destruct (Props.onClose p); simpl;
        left; (split; [reflexivity|exact Hs]).
    + unfold Button_click, call.
      destruct (isSyncing (state (world c)) ||
                negb (isURLOverridden (state (world c))) && isConnect p).
      * left. split; assumption.
      * destruct (onSync_continuation p env (state (world c)) (world c))
          as (w1 & k & -> & Hw1 & Hk).
        rewrite Hp. simpl. right. exists k. repeat split; assumption.
  - destruct e as [u|o].
    + destruct (handle_user_while_syncing p env u c Hs) as (H1 & _ & H3 & _).
      right. exists k. simpl. rewrite H3. repeat split; assumption.
    + simpl. rewrite Hp. destruct (Hk o (world c)) as (x & w' & -> & Hw').
      simpl. left. split; [reflexivity|exact Hw'].
Qed.

(** Along every run of the event loop from the initial state, at most one
    call of [onSync] is suspended, and one is exactly when [isSyncing] is
    true. *)
Theorem at_most_one_pending p env es :
  length (pending (run p env es (initialConfig p))) <= 1 /\
  (isSyncing (state (world (run p env es (initialConfig p)))) = true <->
   pending (run p env es (initialConfig p)) <> []).
Proof.
  assert (H : quiescent_or_single (run p env es (initialConfig p))).
  { assert (H0 : quiescent_or_single (initialConfig p))
      by (left; split; reflexivity).
    revert H0. generalize (initialConfig p).
    induction es as [|e es IH]; intros c Hc; [exact Hc|].
    apply (IH (handle p env e c)). apply handle_keeps_single. exact Hc. }
  destruct H as [[Hp Hs]|(k & Hp & Hs & _)]; rewrite Hp, Hs; simpl.
  - split; [lia|]. split; [discriminate|]. intros H. exfalso. apply H.
    reflexivity.
  - split; [lia|]. split; [discriminate|reflexivity].
Qed.

(** * Further properties of the component *)

(** Two more configurations used as examples below: scenario B with
    nothing pending, and scenario C once its call has failed. *)
Definition scenarioB_config : Config :=
  {| world := {| state := scenarioB_state; effects := [] |}; pending := [] |}.

Definition scenarioC_failed : Config :=
  run scenarioA_props scenario_env
    [User SubmitClicked; Settled scenarioC_no_data]
    (initialConfig scenarioA_props).

(** ** The continuation of [onSync] *)

(** [settles p k]: for every settlement and every world by then, [k] ends
    at once and normally; it resets [isSyncing], leaves the override alone,
    and sets the failure and emits effects by the kind of the settlement. *)
Definition settles (p : Props.t)
  (k : Completion OperationResult -> World -> Res unit) : Prop :=
  forall o w, exists wf,
    k o w = Fin (Value tt) wf /\
    isSyncing (state wf) = false /\
    isURLOverridden (state wf) = isURLOverridden (state w) /\
    overrideValue (state wf) = overrideValue (state w) /\
    (transportFailure o ->
     failure (state wf) =
       Some {| code := "unknown"; data := None; message := None |} /\
     effects wf = effects w) /\
    (forall e, applicationError o e ->
     failure (state wf) = Some e /\ effects wf = effects w) /\
    (successful o ->
     failure (state wf) = failure_after_success p /\
     effects wf = effects w ++ effects_of_success).

Lemma onSync_settles p env s w :
  exists k,
    onSync p env s w =
    Await {| state := setIsSyncing true (state w);
             effects :=
               effects w ++
               [ExecuteMutation
                  {| Variables.appExternalID := Props.appExternalID p;
                     Variables.appURL := Some (effectiveURL p s);
                     Variables.envID := Environment.id env |}
                  {| OperationContext.additionalTypenames := ["Workflow"] |}]
          |} k /\
    settles p k.
Proof.
  eexists. split; [reflexivity|].
  intros o w'.
  unfold toast_success, onClose, completes, failure_after_success,
    effects_of_success.
  destruct toast_success_throws as [x0|];
    destruct (Props.onClose p) as [y0|];
    destruct o as [[[d|] [msg|]]|x]; simpl;
    try (destruct (error (data_resyncApp d)) as [e0|] eqn:E; simpl);
    (eexists; split; [reflexivity|]; simpl;
     repeat match goal with |- _ /\ _ => split end;
     try reflexivity; intros;
     first
       [ split; [reflexivity|];
         first [reflexivity | rewrite <- app_assoc; reflexivity]
       | destruct H as [H|H]; [congruence|discriminate]
       | destruct H as (res & d' & Heq & He & Hd & Herr);
         inversion Heq; subst; simpl in *;
         first [discriminate | congruence | split; congruence] ]).
Qed.

(** ** Starting a resync, and user events around it *)

Lemma run_app p env es1 es2 c :
  run p env (es1 ++ es2) c = run p env es2 (run p env es1 c).
Proof. unfold run. apply fold_left_app. Qed.

Lemma submit_starts p env c :
  submitDisabled (render p (state (world c))) = false ->
  exists k,
    handle p env (User SubmitClicked) c =
    {| world :=
         {| state := setIsSyncing true (state (world c));
            effects :=
              effects (world c) ++
              [ExecuteMutation
                 {| Variables.appExternalID := Props.appExternalID p;
                    Variables.appURL :=
                      Some (effectiveURL p (state (world c)));
                    Variables.envID := Environment.id env |}
                 {| OperationContext.additionalTypenames := ["Workflow"] |}]
         |};
       pending := pending c ++ [k] |} /\
    settles p k.
Proof.
  intros H. simpl in H. simpl. unfold handle_user, Button_click. simpl.
  rewrite H. unfold call.
  destruct (onSync_settles p env (state (world c)) (world c)) as (k & -> & Hk).
  exists k. split; [reflexivity|exact Hk].
Qed.

Lemma handle_user_keeps_failure p env u c :
  failure (state (world (handle_user p env u c))) = failure (state (world c)).
Proof.
  destruct u; unfold handle_user, Switch_click, Input_type, Button_click, call;
    simpl.
  - destruct (isSyncing (state (world c))); reflexivity.
  - destruct (negb (isURLOverridden (state (world c)))); reflexivity.
  - destruct (isSyncing (state (world c))); [reflexivity|].
    unfold onClose, completes, bind. simpl.
    destruct (Props.onClose p); reflexivity.
  - destruct (isSyncing (state (world c)) ||
              negb (isURLOverridden (state (world c))) && isConnect p);
      reflexivity.
Qed.

Lemma run_users_keep_failure p env us : forall c,
  failure (state (world (run p env (map User us) c))) =
  failure (state (world c)).
Proof.
  induction us as [|u us IH]; intros c; [reflexivity|].
  change (run p env (map User (u :: us)) c)
    with (run p env (map User us) (handle_user p env u c)).
  rewrite IH. apply handle_user_keeps_failure.
Qed.

(** One whole resync from a configuration with no pending call: the click,
    any user events while the call is in flight, and the settlement. *)
Lemma resync_cycle p env c us o :
  pending c = [] ->
  submitDisabled (render p (state (world c))) = false ->
  exists wm wf,
    world (run p env (User SubmitClicked :: map User us) c) = wm /\
    run p env (User SubmitClicked :: map User us ++ [Settled o]) c =
      {| world := wf; pending := [] |} /\
    isSyncing (state wm) = true /\
    isURLOverridden (state wm) = isURLOverridden (state (world c)) /\
    failure (state wm) = failure (state (world c)) /\
    effects wm =
      effects (world c) ++
      [ExecuteMutation
         {| Variables.appExternalID := Props.appExternalID p;
            Variables.appURL := Some (effectiveURL p (state (world c)));
            Variables.envID := Environment.id env |}
         {| OperationContext.additionalTypenames := ["Workflow"] |}] /\
    isSyncing (state wf) = false /\
    isURLOverridden (state wf) = isURLOverridden (state (world c)) /\
    overrideValue (state wf) = overrideValue (state wm) /\
    (transportFailure o ->
     failure (state wf) =
       Some {| code := "unknown"; data := None; message := None |} /\
     effects wf = effects wm) /\
    (forall e, applicationError o e ->
     failure (state wf) = Some e /\ effects wf = effects wm) /\
    (successful o ->
     failure (state wf) = failure_after_success p /\
     effects wf = effects wm ++ effects_of_success).
Proof.
  intros Hp Hd.
  destruct (submit_starts p env c Hd) as (k & Hc1 & Hk).
  rewrite Hp in Hc1.
  change (User SubmitClicked :: map User us ++ [Settled o])
    with ((User SubmitClicked :: map User us) ++ [Settled o]).
  rewrite run_app.
  change (run p env (User SubmitClicked :: map User us) c)
    with (run p env (map User us) (handle p env (User SubmitClicked) c)).
  rewrite Hc1.
  match goal with |- context [run p env (map User us) ?c1] =>
    set (c1' := c1) end.
  assert (Hs1 : isSyncing (state (world c1')) = true) by reflexivity.
  destruct (run_users_while_syncing p env us c1' Hs1) as (I1 & I2 & I3 & I4).
  pose proof (run_users_keep_failure p env us c1') as I5.
  set (cm := run p env (map User us) c1') in *.
  destruct (Hk o (world cm)) as (wf & Hwf & F1 & F2 & F3 & F4 & F5 & F6).
  exists (world cm), wf. split; [reflexivity|].
  split.
  { unfold run at 1. simpl. rewrite I3. simpl. rewrite Hwf. reflexivity. }
  split; [exact I1|]. split; [exact I2|]. split; [exact I5|].
  split; [exact I4|]. split; [exact F1|].
  split; [rewrite F2; exact I2|]. split; [exact F3|].
  split; [exact F4|]. split; [exact F5|exact F6].
Qed.

(** ** The requests of a whole run *)

(** What every mutation of this component looks like: the application and
    the environment it names, a URL, and the typename whose cached results
    the call invalidates (lines 66-79). *)
Definition request_ok (p : Props.t) (env : Environment.t) (e : Effect)
  : Prop :=
  match e with
  | ExecuteMutation variables context =>
      Variables.appExternalID variables = Props.appExternalID p /\
      Variables.envID variables = Environment.id env /\
      Variables.appURL variables <> None /\
      OperationContext.additionalTypenames context = ["Workflow"]
  | _ => True
  end.

Definition requests_ok (p : Props.t) (env : Environment.t) (c : Config)
  : Prop :=
  Forall (settles p) (pending c) /\ Forall (request_ok p env) (effects (world c)).

Lemma handle_keeps_requests_ok p env e c :
  requests_ok p env c -> requests_ok p env (handle p env e c).
Proof.
  intros [Hk He]. destruct e as [u|o].
  - destruct u.
    + simpl. unfold handle_user, Switch_click, call. simpl.
      destruct (isSyncing (state (world c))); split; assumption.
    + simpl. unfold handle_user, Input_type, call. simpl.
      destruct (negb (isURLOverridden (state (world c)))); split; assumption.
    + simpl. unfold handle_user, Button_click, call. simpl.
      destruct (isSyncing (state (world c))); [split; assumption|].
      unfold onClose, completes, bind. simpl.
      destruct (Props.onClose p); simpl;
        (split; [exact Hk|]; simpl; apply Forall_app; split; [exact He|];
         constructor; [exact I|constructor]).
    + destruct (submitDisabled (render p (state (world c)))) eqn:Hd.
      * cbv beta iota zeta delta [handle handle_user Button_click].
        rewrite Hd. split; assumption.
      * destruct (submit_starts p env c Hd) as (k & -> & Hs).
        split; simpl; apply Forall_app; (split; [assumption|]);
          (constructor; [|constructor]); [exact Hs|].
        simpl. repeat split. discriminate.
  - simpl. destruct (pending c) as [|k rest] eqn:Hp.
    + split; [rewrite Hp; constructor|exact He].
    + inversion Hk as [|? ? Hs Hrest]; subst.
      destruct (Hs o (world c)) as (wf & -> & _ & _ & _ & F4 & F5 & F6).
      split; [exact Hrest|]. simpl.
      destruct (outcome_cases o) as [H|[[x H]|H]].
      * destruct (F4 H) as [_ ->]. exact He.
      * destruct (F5 x H) as [_ ->]. exact He.
      * destruct (F6 H) as [_ ->]. apply Forall_app. split; [exact He|].
        unfold effects_of_success.
        destruct toast_success_throws; repeat constructor.
Qed.

(** ** More that the code shows *)

(** X2.  Along every run of the event loop from the initial state, every
    mutation that was dispatched names the application and the environment
    of the component, carries a URL that is not null, and asks to
    invalidate the cached results of the type "Workflow". *)
Theorem every_request_invalidates_workflow p env es :
  Forall (request_ok p env) (effects (world (run p env es (initialConfig p)))).
Proof.
  assert (H : requests_ok p env (run p env es (initialConfig p))).
  { assert (H0 : requests_ok p env (initialConfig p))
      by (split; constructor).
    revert H0. generalize (initialConfig p).
    induction es as [|e es IH]; intros c Hc; [exact Hc|].
    apply (IH (handle p env e c)). apply handle_keeps_requests_ok. exact Hc. }
  exact (proj2 H).
Qed.

(** X3.  A resync started while an earlier failure is stored keeps that
    failure but hides it: through the click and any user events while the
    call is in flight the failure stays in the state, and neither the
    failure display nor the Vercel notice nor the override warning is
    rendered. *)
Theorem retry_keeps_failure_hidden p env c us e :
  failure (state (world c)) = Some e ->
  submitDisabled (render p (state (world c))) = false ->
  let c' := run p env (User SubmitClicked :: map User us) c in
  failure (state (world c')) = Some e /\
  syncFailureShown (render p (state (world c'))) = None /\
  vercelAlertShown (render p (state (world c'))) = false /\
  overrideWarningShown (render p (state (world c'))) = false.
Proof.
  intros Hf Hd c'. subst c'.
  change (run p env (User SubmitClicked :: map User us) c)
    with (run p env (map User us) (handle p env (User SubmitClicked) c)).
  destruct (submit_starts p env c Hd) as (k & Hc1 & _).
  assert (Hs1 : isSyncing (state (world (handle p env (User SubmitClicked) c)))
                = true) by (rewrite Hc1; reflexivity).
  assert (Hf1 : failure (state (world (handle p env (User SubmitClicked) c)))
                = Some e) by (rewrite Hc1; exact Hf).
  destruct (run_users_while_syncing p env us _ Hs1) as (I1 & _).
  pose proof (run_users_keep_failure p env us
                (handle p env (User SubmitClicked) c)) as I5.
  rewrite Hf1 in I5.
  set (sm := state (world (run p env (map User us)
                             (handle p env (User SubmitClicked) c)))) in *.
  clearbody sm. simpl. rewrite I5, I1. simpl.
  repeat split; try reflexivity; apply andb_false_r.
Qed.

(** X4.  While nothing is syncing the override switch is its own inverse:
    two clicks give back the configuration, one click keeps the override
    text and swaps the effective URL between that text and the URL of the
    props. *)
Theorem override_switch_round_trip p env c :
  isSyncing (state (world c)) = false ->
  let c1 := handle p env (User SwitchClicked) c in
  handle p env (User SwitchClicked) c1 = c /\
  overrideValue (state (world c1)) = overrideValue (state (world c)) /\
  effectiveURL p (state (world c1)) =
    (if isURLOverridden (state (world c))
     then Props.url p
     else overrideValue (state (world c))).
Proof.
  destruct c as [[[ov ovr f sy] eff] pend]. simpl. intros ->.
  unfold handle_user, Switch_click, call, effectiveURL. simpl.
  destruct ovr; repeat split; reflexivity.
Qed.

(** X5.  With the override on and nothing syncing, the text typed into the
    input is what the next resync sends, unchanged and unchecked: the
    input shows it and the dispatched request carries it as [appURL],
    whatever the text is. *)
Theorem typed_url_is_sent_unchanged p env c text :
  isSyncing (state (world c)) = false ->
  isURLOverridden (state (world c)) = true ->
  let c1 := handle p env (User (InputTyped text)) c in
  inputValue (render p (state (world c1))) = text /\
  dispatched (effects (world (handle p env (User SubmitClicked) c1))) =
  dispatched (effects (world c)) ++
  [{| Variables.appExternalID := Props.appExternalID p;
      Variables.appURL := Some text;
      Variables.envID := Environment.id env |}].
Proof.
  destruct c as [[[ov ovr f sy] eff] pend]. simpl. intros -> ->.
  unfold handle_user, Input_type, Button_click, call, effectiveURL. simpl.
  split; [reflexivity|]. rewrite dispatched_app. reflexivity.
Qed.

(** X6.  A resync from a configuration with no pending call, however it
    settles and whatever the user does meanwhile, ends with no pending
    call, [isSyncing] false and the override flag as it was, so that the
    submit button, the cancel button and the switch are enabled again. *)
Theorem resync_returns_to_idle p env c us o :
  pending c = [] ->
  submitDisabled (render p (state (world c))) = false ->
  let c' := run p env (User SubmitClicked :: map User us ++ [Settled o]) c in
  pending c' = [] /\
  isSyncing (state (world c')) = false /\
  isURLOverridden (state (world c')) = isURLOverridden (state (world c)) /\
  submitDisabled (render p (state (world c'))) = false /\
  cancelDisabled (render p (state (world c'))) = false /\
  switchDisabled (render p (state (world c'))) = false.
Proof.
  intros Hp Hd c'. subst c'.
  destruct (resync_cycle p env c us o Hp Hd)
    as (wm & wf & _ & -> & _ & _ & _ & _ & F1 & F2 & _).
  simpl. split; [reflexivity|]. split; [exact F1|]. split; [exact F2|].
  simpl in Hd. apply orb_false_elim in Hd. destruct Hd as [_ Hd].
  rewrite F1, F2, Hd. repeat split; reflexivity.
Qed.

(** X7.  What is rendered once a resync from a configuration with no
    pending call has settled: after a transport failure the failure display
    shows the error with code "unknown"; after an application-level error
    it shows that error; in both cases the Vercel notice and the override
    warning are hidden.  After a successful response, when [toast.success]
    and [onClose] return, no failure is displayed, the Vercel notice is
    shown when the platform is "vercel" and the override warning when the
    override is on; when one of the two calls throws, the failure display
    shows the error with code "unknown" and both notices are hidden. *)
Theorem settled_resync_display p env c us o :
  pending c = [] ->
  submitDisabled (render p (state (world c))) = false ->
  let v :=
    render p
      (state (world
         (run p env (User SubmitClicked :: map User us ++ [Settled o]) c))) in
  (transportFailure o ->
   syncFailureShown v =
     Some {| code := "unknown"; data := None; message := None |} /\
   vercelAlertShown v = false /\ overrideWarningShown v = false) /\
  (forall e, applicationError o e ->
   syncFailureShown v = Some e /\
   vercelAlertShown v = false /\ overrideWarningShown v = false) /\
  (successful o ->
   toast_success_throws = None ->
   Props.onClose p = None ->
   syncFailureShown v = None /\
   vercelAlertShown v = platform_is p "vercel" /\
   overrideWarningShown v = isURLOverridden (state (world c))) /\
  (successful o ->
   toast_success_throws <> None \/ Props.onClose p <> None ->
   syncFailureShown v =
     Some {| code := "unknown"; data := None; message := None |} /\
   vercelAlertShown v = false /\ overrideWarningShown v = false).
Proof.
  intros Hp Hd v. subst v.
  destruct (resync_cycle p env c us o Hp Hd)
    as (wm & wf & _ & -> & _ & _ & _ & _ & F1 & F2 & _ & F4 & F5 & F6).
  simpl. rewrite F1, F2. split; [|split; [|split]].
  - intros H. destruct (F4 H) as [-> _]. simpl.
    repeat split; apply andb_false_r.
  - intros e H. destruct (F5 e H) as [-> _]. simpl.
    repeat split; apply andb_false_r.
  - intros H Ht Hc. destruct (F6 H) as [-> _].
    unfold failure_after_success. rewrite Ht, Hc. simpl.
    repeat split; apply andb_true_r.
  - intros H Hx. destruct (F6 H) as [-> _].
    unfold failure_after_success.
    destruct toast_success_throws as [x|];
      [|destruct (Props.onClose p) as [y|];
        [|destruct Hx as [Hx|Hx]; exfalso; apply Hx; reflexivity]];
      simpl; repeat split; apply andb_false_r.
Qed.

(** X8.  In migration mode (the method of the application is connect), a
    request that a click on the submit button dispatches carries the
    override text: the override is on at that time and [appURL] is the
    override buffer, never the URL of the props as such. *)
Theorem migration_request_uses_override p env c variables :
  Props.appMethod p = Some methodTypes_Connect ->
  dispatched (effects (world (handle p env (User SubmitClicked) c))) =
    dispatched (effects (world c)) ++ [variables] ->
  isURLOverridden (state (world c)) = true /\
  Variables.appURL variables = Some (overrideValue (state (world c))).
Proof.
  intros Hm Hx.
  destruct (submitDisabled (render p (state (world c)))) eqn:Hd.
  - exfalso.
    cbv beta iota zeta delta [handle handle_user Button_click] in Hx.
    rewrite Hd in Hx.
    apply (f_equal (@length _)) in Hx. rewrite length_app in Hx.
    simpl in Hx. lia.
  - destruct (submit_starts p env c Hd) as (k & Hc1 & _).
    rewrite Hc1 in Hx. simpl in Hx. rewrite dispatched_app in Hx.
    apply app_inv_head in Hx. injection Hx as <-. simpl.
    simpl in Hd. apply orb_false_elim in Hd. destruct Hd as [_ Hd].
    unfold isConnect in Hd. rewrite Hm, String.eqb_refl, andb_true_r in Hd.
    apply negb_false_iff in Hd. unfold effectiveURL. rewrite Hd.
    split; reflexivity.
Qed.

(** X9.  A click on the cancel button never touches the state cells or the
    pending call; it emits the close signal when nothing is syncing and
    does nothing at all while a resync is in flight. *)
Theorem cancel_closes_only_when_idle p env c :
  state (world (handle p env (User CancelClicked) c)) = state (world c) /\
  pending (handle p env (User CancelClicked) c) = pending c /\
  effects (world (handle p env (User CancelClicked) c)) =
    effects (world c) ++
    (if isSyncing (state (world c)) then [] else [OnClose]).
Proof.
  simpl. unfold handle_user, Button_click, call. simpl.
  destruct (isSyncing (state (world c))); simpl.
  - rewrite app_nil_r. repeat split; reflexivity.
  - unfold onClose, completes, bind. simpl.
    destruct (Props.onClose p); simpl; repeat split; reflexivity.
Qed.

(** X10.  When the method of the application is missing or is not the
    connect method, the component is in resync mode: the submit button is
    disabled exactly while syncing, whatever the override, the header and
    the button read "Resync app", and the migration notice is not shown. *)
Theorem resync_mode_unless_connect p s :
  Props.appMethod p <> Some methodTypes_Connect ->
  submitDisabled (render p s) = isSyncing s /\
  headerTitle (render p s) = "Resync app" /\
  submitLabel (render p s) = "Resync app" /\
  connectNoticeShown (render p s) = false.
Proof.
  intros Hm.
  assert (Hc : isConnect p = false).
  { unfold isConnect. destruct (Props.appMethod p) as [m|]; [|reflexivity].
    apply String.eqb_neq. intros ->. apply Hm. reflexivity. }
  simpl. rewrite Hc, andb_false_r, orb_false_r. repeat split; reflexivity.
Qed.

(** X11.  Text typed into the input while a resync is in flight (the
    override being on) does not change the request of that resync, which
    carries the override text as of the click, and it is the override text
    once the call has settled, however it settles. *)
Theorem in_flight_edit_is_kept p env c text o :
  pending c = [] ->
  submitDisabled (render p (state (world c))) = false ->
  isURLOverridden (state (world c)) = true ->
  let c' :=
    run p env
      (User SubmitClicked :: map User [InputTyped text] ++ [Settled o]) c in
  overrideValue (state (world c')) = text /\
  dispatched (effects (world c')) =
  dispatched (effects (world c)) ++
  [{| Variables.appExternalID := Props.appExternalID p;
      Variables.appURL := Some (overrideValue (state (world c)));
      Variables.envID := Environment.id env |}].
Proof.
  intros Hp Hd Ho c'. subst c'.
  destruct (resync_cycle p env c [InputTyped text] o Hp Hd)
    as (wm & wf & Hwm & -> & _ & _ & _ & E & _ & _ & F3 & F4 & F5 & F6).
  simpl. split.
  - rewrite F3, <- Hwm.
    destruct (submit_starts p env c Hd) as (k & Hc1 & _).
    change (run p env (User SubmitClicked :: map User [InputTyped text]) c)
      with (handle_user p env (InputTyped text)
              (handle p env (User SubmitClicked) c)).
    rewrite Hc1. unfold handle_user, Input_type, call. simpl.
    rewrite Ho. reflexivity.
  - assert (Hx : dispatched (effects wf) = dispatched (effects wm)).
    { destruct (outcome_cases o) as [H|[[x H]|H]].
      - destruct (F4 H) as [_ ->]. reflexivity.
      - destruct (F5 x H) as [_ ->]. reflexivity.
      - destruct (F6 H) as [_ ->]. rewrite dispatched_app.
        unfold effects_of_success.
        destruct toast_success_throws; simpl; apply app_nil_r. }
    rewrite Hx, E, dispatched_app. unfold effectiveURL. rewrite Ho.
    reflexivity.
Qed.

End ResyncModal.

(** * The theorems at the scenarios of the specification *)

(** C1, counterexample.  Scenario A: the override is off and the user
    confirms; the request carries the URL of the props, not null. *)
Lemma resync_request_url_not_null :
  isURLOverridden (@initialState unit scenarioA_props) = false /\
  map Variables.appURL
    (dispatched
       (effects
          (snd (run_with (@scenarioA_response unit) (fun s => s)
                  (onSync None scenarioA_props scenario_env
                     (initialState scenarioA_props)
                     (world (initialConfig scenarioA_props))))))) =
    [Some "https://a.com/api/inngest"] /\
  map Variables.appURL
    (dispatched
       (effects
          (snd (run_with (@scenarioA_response unit) (fun s => s)
                  (onSync None scenarioA_props scenario_env
                     (initialState scenarioA_props)
                     (world (initialConfig scenarioA_props))))))) <> [None].
Proof.
  split; [reflexivity|]. split; [reflexivity|]. discriminate.
Qed.

(** C3, witness.  Scenario C: the response has no data. *)
Lemma transport_failure_is_unknown_witness :
  transportFailure (@scenarioC_no_data unit) /\
  let wf :=
    snd (run_with (@scenarioC_no_data unit) (fun s => s)
           (onSync None scenarioA_props scenario_env scenarioB_state
              {| state := scenarioB_state; effects := [] |})) in
  failure (state wf) =
    Some {| code := "unknown"; data := None; message := None |} /\
  closeSignals (effects wf) = closeSignals [].
Proof.
  split; [right; reflexivity|].
  apply (transport_failure_is_unknown None scenarioA_props scenario_env
           scenarioB_state {| state := scenarioB_state; effects := [] |}
           scenarioC_no_data (fun s => s)).
  right. reflexivity.
Defined.



(** C5, counterexample.  Scenario B with a transport-level error beside the
    error object: the response carries the application-level error, and the
    failure stored is the error with code "unknown", not that error. *)
Lemma application_error_lost_behind_res_error :
  (exists res d,
     @scenarioB_response_with_res_error unit = Value _ res /\
     res_data res = Some d /\
     error (data_resyncApp d) = Some scenarioB_error) /\
  failure
    (state
       (snd (run_with (@scenarioB_response_with_res_error unit) (fun s => s)
               (onSync None scenarioA_props scenario_env scenarioB_state
                  {| state := scenarioB_state; effects := [] |}))))
    = Some {| code := "unknown"; data := None; message := None |} /\
  failure
    (state
       (snd (run_with (@scenarioB_response_with_res_error unit) (fun s => s)
               (onSync None scenarioA_props scenario_env scenarioB_state
                  {| state := scenarioB_state; effects := [] |}))))
    <> Some scenarioB_error.
Proof.
  split; [do 2 eexists; repeat split; reflexivity|].
  split; [reflexivity|discriminate].
Qed.

(** C5, witness.  Scenario B: the override is on with "https://b.com/x" and
    the response carries the error with code "invalid_url". *)
Lemma application_error_kept_verbatim_witness :
  applicationError (@scenarioB_response unit) scenarioB_error /\
  let wf :=
    snd (run_with (@scenarioB_response unit) (fun s => s)
           (onSync None scenarioA_props scenario_env scenarioB_state
              {| state := scenarioB_state; effects := [] |})) in
  failure (state wf) =
    Some {| code := "invalid_url"; data := None;
            message := Some "bad host" |} /\
  closeSignals (effects wf) = closeSignals [] /\
  isSyncing (state wf) = false.
Proof.
  assert (H : applicationError (@scenarioB_response unit) scenarioB_error).
  { do 2 eexists. repeat split; reflexivity. }
  split; [exact H|].
  exact (application_error_kept_verbatim None scenarioA_props scenario_env
           scenarioB_state {| state := scenarioB_state; effects := [] |}
           scenarioB_response (fun s => s) scenarioB_error H).
Defined.

(** C7, witness.  Scenario D: the method is connect, the override is off
    and nothing is syncing. *)
Lemma migration_needs_override_witness :
  Props.appMethod (scenarioD_props "connect") = Some "connect" /\
  isURLOverridden (@initialState unit (scenarioD_props "connect")) = false /\
  submitDisabled
    (render "connect" (scenarioD_props "connect")
       (@initialState unit (scenarioD_props "connect"))) = true.
Proof.
  split; [reflexivity|]. split; [reflexivity|].
  apply (@migration_needs_override unit "connect" (scenarioD_props "connect")
           (initialState (scenarioD_props "connect")));
    reflexivity.
Defined.

(** C8, witness.  The user clicks the submit button twice more while the
    call of scenario A is in flight. *)
Lemma single_resync_in_flight_witness :
  isSyncing (state (world (@scenarioA_in_flight unit "connect" None))) = true /\
  submitDisabled (render "connect" scenarioA_props
                    (state (world (@scenarioA_in_flight unit "connect" None)))) = true /\
  handle "connect" None scenarioA_props scenario_env (User SubmitClicked)
    (@scenarioA_in_flight unit "connect" None) = (@scenarioA_in_flight unit "connect" None) /\
  let c' :=
    run "connect" None scenarioA_props scenario_env
      (map User [SubmitClicked; InputTyped "x"; SubmitClicked])
      (@scenarioA_in_flight unit "connect" None) in
  submitDisabled (render "connect" scenarioA_props (state (world c'))) =
    true /\
  pending c' = pending (@scenarioA_in_flight unit "connect" None) /\
  dispatched (effects (world c')) =
    dispatched (effects (world (@scenarioA_in_flight unit "connect" None))).
Proof.
  split; [reflexivity|].
  apply (single_resync_in_flight "connect" None scenarioA_props scenario_env
           (@scenarioA_in_flight unit "connect" None) [SubmitClicked; InputTyped "x"; SubmitClicked]).
  reflexivity.
Defined.

(** C10, witness.  The user clicks the switch twice while the call of
    scenario A is in flight. *)
Lemma override_frozen_in_flight_witness :
  isSyncing (state (world (@scenarioA_in_flight unit "connect" None))) = true /\
  switchDisabled (render "connect" scenarioA_props
                    (state (world (@scenarioA_in_flight unit "connect" None)))) = true /\
  handle "connect" None scenarioA_props scenario_env (User SwitchClicked)
    (@scenarioA_in_flight unit "connect" None) = (@scenarioA_in_flight unit "connect" None) /\
  let c' :=
    run "connect" None scenarioA_props scenario_env
      (map User [SwitchClicked; InputTyped "x"; SwitchClicked])
      (@scenarioA_in_flight unit "connect" None) in
  switchDisabled (render "connect" scenarioA_props (state (world c'))) =
    true /\
  isURLOverridden (state (world c')) =
    isURLOverridden (state (world (@scenarioA_in_flight unit "connect" None))) /\
  effectiveURL scenarioA_props (state (world c')) =
    (if isURLOverridden (state (world (@scenarioA_in_flight unit "connect" None)))
     then overrideValue (state (world c'))
     else Props.url scenarioA_props).
Proof.
  split; [reflexivity|].
  apply (override_frozen_in_flight "connect" None scenarioA_props scenario_env
           (@scenarioA_in_flight unit "connect" None) [SwitchClicked; InputTyped "x"; SwitchClicked]).
  reflexivity.
Defined.

(** * Examples of the further properties *)

(** X3, witness.  The call of scenario C has failed; the user confirms
    again and types while the new call is in flight. *)
Lemma retry_keeps_failure_hidden_witness :
  failure (state (world (@scenarioC_failed unit "connect" None))) =
    Some {| code := "unknown"; data := None; message := None |} /\
  submitDisabled
    (render "connect" scenarioA_props
       (state (world (@scenarioC_failed unit "connect" None)))) = false /\
  let c' :=
    run "connect" None scenarioA_props scenario_env
      (User SubmitClicked :: map User [InputTyped "x"])
      (@scenarioC_failed unit "connect" None) in
  failure (state (world c')) =
    Some {| code := "unknown"; data := None; message := None |} /\
  syncFailureShown (render "connect" scenarioA_props (state (world c'))) =
    None /\
  vercelAlertShown (render "connect" scenarioA_props (state (world c'))) =
    false /\
  overrideWarningShown (render "connect" scenarioA_props (state (world c'))) =
    false.
Proof.
  split; [reflexivity|]. split; [reflexivity|].
  apply (retry_keeps_failure_hidden "connect" None scenarioA_props scenario_env
           (@scenarioC_failed unit "connect" None) [InputTyped "x"]);
    reflexivity.
Defined.

(** X4, witness.  The switch in the initial state of scenario A. *)
Lemma override_switch_round_trip_witness :
  isSyncing (state (world (@initialConfig unit scenarioA_props))) = false /\
  let c1 :=
    handle "connect" None scenarioA_props scenario_env (User SwitchClicked)
      (@initialConfig unit scenarioA_props) in
  handle "connect" None scenarioA_props scenario_env (User SwitchClicked) c1 =
    initialConfig scenarioA_props /\
  overrideValue (state (world c1)) =
    overrideValue (state (world (@initialConfig unit scenarioA_props))) /\
  effectiveURL scenarioA_props (state (world c1)) =
    (if isURLOverridden (state (world (@initialConfig unit scenarioA_props)))
     then Props.url scenarioA_props
     else overrideValue
            (state (world (@initialConfig unit scenarioA_props)))).
Proof.
  split; [reflexivity|].
  apply (override_switch_round_trip "connect" None scenarioA_props scenario_env
           (@initialConfig unit scenarioA_props)).
  reflexivity.
Defined.

(** X5, witness.  The user empties the input of scenario B and confirms:
    the empty text is sent. *)
Lemma typed_url_is_sent_unchanged_witness :
  isSyncing (state (world (@scenarioB_config unit))) = false /\
  isURLOverridden (state (world (@scenarioB_config unit))) = true /\
  let c1 :=
    handle "connect" None scenarioA_props scenario_env (User (InputTyped ""))
      (@scenarioB_config unit) in
  inputValue (render "connect" scenarioA_props (state (world c1))) = "" /\
  dispatched
    (effects
       (world
          (handle "connect" None scenarioA_props scenario_env (User SubmitClicked)
             c1))) =
  dispatched (effects (world (@scenarioB_config unit))) ++
  [{| Variables.appExternalID := Props.appExternalID scenarioA_props;
      Variables.appURL := Some "";
      Variables.envID := Environment.id scenario_env |}].
Proof.
  split; [reflexivity|]. split; [reflexivity|].
  apply (typed_url_is_sent_unchanged "connect" None scenarioA_props scenario_env
           (@scenarioB_config unit) "");
    reflexivity.
Defined.

(** X6, witness.  Scenario A with a response without data, the user
    clicking the (disabled) switch meanwhile. *)
Lemma resync_returns_to_idle_witness :
  pending (@initialConfig unit scenarioA_props) = [] /\
  submitDisabled
    (render "connect" scenarioA_props
       (state (world (@initialConfig unit scenarioA_props)))) = false /\
  let c' :=
    run "connect" None scenarioA_props scenario_env
      (User SubmitClicked :: map User [SwitchClicked] ++
       [Settled scenarioC_no_data])
      (@initialConfig unit scenarioA_props) in
  pending c' = [] /\
  isSyncing (state (world c')) = false /\
  isURLOverridden (state (world c')) =
    isURLOverridden (state (world (@initialConfig unit scenarioA_props))) /\
  submitDisabled (render "connect" scenarioA_props (state (world c'))) =
    false /\
  cancelDisabled (render "connect" scenarioA_props (state (world c'))) =
    false /\
  switchDisabled (render "connect" scenarioA_props (state (world c'))) =
    false.
Proof.
  split; [reflexivity|]. split; [reflexivity|].
  apply (resync_returns_to_idle "connect" None scenarioA_props scenario_env
           (@initialConfig unit scenarioA_props) [SwitchClicked]
           scenarioC_no_data);
    reflexivity.
Defined.

(** X7, witness.  Scenario B: the error with code "invalid_url" is what the
    failure display shows. *)
Lemma settled_resync_display_witness :
  pending (@scenarioB_config unit) = [] /\
  submitDisabled
    (render "connect" scenarioA_props (state (world (@scenarioB_config unit))))
    = false /\
  applicationError (@scenarioB_response unit) scenarioB_error /\
  syncFailureShown
    (render "connect" scenarioA_props
       (state (world
          (run "connect" None scenarioA_props scenario_env
             (User SubmitClicked :: map User [] ++
              [Settled scenarioB_response])
             (@scenarioB_config unit))))) =
    Some scenarioB_error.
Proof.
  assert (H : applicationError (@scenarioB_response unit) scenarioB_error).
  { do 2 eexists. repeat split; reflexivity. }
  split; [reflexivity|]. split; [reflexivity|]. split; [exact H|].
  exact (proj1
           (proj1 (proj2
              (settled_resync_display "connect" None scenarioA_props scenario_env
                 (@scenarioB_config unit) [] scenarioB_response
                 eq_refl eq_refl))
              scenarioB_error H)).
Defined.

(** X8, witness.  Scenario D with the override on: the request carries the
    override text "https://b.com/x". *)
Lemma migration_request_uses_override_witness :
  Props.appMethod (scenarioD_props "connect") = Some "connect" /\
  dispatched
    (effects
       (world
          (handle "connect" None (scenarioD_props "connect") scenario_env
             (User SubmitClicked) (@scenarioB_config unit)))) =
    dispatched (effects (world (@scenarioB_config unit))) ++
    [{| Variables.appExternalID := "my-app";
        Variables.appURL := Some "https://b.com/x";
        Variables.envID := "env-1" |}] /\
  isURLOverridden (state (world (@scenarioB_config unit))) = true /\
  Variables.appURL
    {| Variables.appExternalID := "my-app";
       Variables.appURL := Some "https://b.com/x";
       Variables.envID := "env-1" |} =
    Some (overrideValue (state (world (@scenarioB_config unit)))).
Proof.
  split; [reflexivity|]. split; [reflexivity|].
  apply (@migration_request_uses_override unit "connect" None
           (scenarioD_props "connect") scenario_env scenarioB_config);
    reflexivity.
Defined.

(** X10, witness.  The props of scenario A without a method. *)
Lemma resync_mode_unless_connect_witness :
  Props.appMethod
    (Props.mk "my-app" true None "https://a.com/api/inngest" None None) <>
    Some "connect" /\
  submitDisabled
    (render "connect"
       (Props.mk "my-app" true None "https://a.com/api/inngest" None None)
       (@scenarioB_state unit)) = isSyncing (@scenarioB_state unit) /\
  headerTitle
    (render "connect"
       (Props.mk "my-app" true None "https://a.com/api/inngest" None None)
       (@scenarioB_state unit)) = "Resync app" /\
  submitLabel
    (render "connect"
       (Props.mk "my-app" true None "https://a.com/api/inngest" None None)
       (@scenarioB_state unit)) = "Resync app" /\
  connectNoticeShown
    (render "connect"
       (Props.mk "my-app" true None "https://a.com/api/inngest" None None)
       (@scenarioB_state unit)) = false.
Proof.
  split; [discriminate|].
  apply (@resync_mode_unless_connect unit "connect"
           (Props.mk "my-app" true None "https://a.com/api/inngest" None None)
           scenarioB_state).
  discriminate.
Defined.

(** X11, witness.  Scenario B: the user types "https://c.com/y" while the
    call is in flight. *)
Lemma in_flight_edit_is_kept_witness :
  pending (@scenarioB_config unit) = [] /\
  submitDisabled
    (render "connect" scenarioA_props (state (world (@scenarioB_config unit))))
    = false /\
  isURLOverridden (state (world (@scenarioB_config unit))) = true /\
  let c' :=
    run "connect" None scenarioA_props scenario_env
      (User SubmitClicked :: map User [InputTyped "https://c.com/y"] ++
       [Settled scenarioB_response])
      (@scenarioB_config unit) in
  overrideValue (state (world c')) = "https://c.com/y" /\
  dispatched (effects (world c')) =
  dispatched (effects (world (@scenarioB_config unit))) ++
  [{| Variables.appExternalID := Props.appExternalID scenarioA_props;
      Variables.appURL :=
        Some (overrideValue (state (world (@scenarioB_config unit))));
      Variables.envID := Environment.id scenario_env |}].
Proof.
  split; [reflexivity|]. split; [reflexivity|]. split; [reflexivity|].
  apply (in_flight_edit_is_kept "connect" None scenarioA_props scenario_env
           (@scenarioB_config unit) "https://c.com/y" scenarioB_response);
    reflexivity.
Defined.
